(** * SO3Base: the representation-polymorphic SO(3) interface

    A shallow embedding of [dart/math/SO3Base.hpp].  The header is a CRTP
    base class [SO3Base<Derived>]; everything it computes itself is embedded
    here, everything it delegates to [detail::SO3::*] or to [Derived] is kept
    abstract.

    Layout of the development:
    - [Scalar]: the scalar type [S] of the coefficients, with the three
      operations the header applies to it;
    - fixed-size Eigen vectors and matrices ([VectorType],
      [RotationMatrixType]) with coefficient access, transpose, negation and
      [operator==];
    - [Hat] and [Vee];
    - the representation tags, [SO3], [toRotationMatrix], the mixed
      [operator==] and [canonical];
    - two scalar instances: [Z] and IEEE binary64 numbers;
    - the scalar operations on raw binary64, NaN included, and what the
      comparisons return there. *)

From Stdlib Require Import ZArith Bool List Lia Eqdep_dec.
From Stdlib Require Import Floats.
Import ListNotations.

Set Implicit Arguments.

(** ** The scalar type

    [S] is [detail::traits<Derived>::S], a template parameter.  The header
    uses exactly three things of it: the constant [static_cast<S>(0)], unary
    minus, and (through Eigen's [operator==]) the comparison [==]. *)

Class Scalar (S : Type) : Type := {
  S0   : S;                 (* static_cast<S>(0) *)
  Sopp : S -> S;            (* unary minus       *)
  Seqb : S -> S -> bool     (* operator==        *)
}.

(** What the comparison and the negation of a numeric scalar satisfy.  The
    laws are stated on [==] (not on Leibniz equality) so that an IEEE type,
    where [0 == -0] although the two are different values, is an instance. *)
Class ScalarLaws (S : Type) {ops : Scalar S} : Prop := {
  Seqb_refl       : forall x : S, Seqb x x = true;
  Seqb_sym        : forall x y : S, Seqb x y = true -> Seqb y x = true;
  Sopp_involutive : forall x : S, Sopp (Sopp x) = x;
  Seqb_zero_opp   : Seqb S0 (Sopp S0) = true;
  Seqb_opp_self   : forall x : S, Seqb x (Sopp x) = true -> Seqb S0 x = true
}.

Arguments ScalarLaws S {ops}.

(** Two further facts of the comparison of a numeric scalar: it is
    transitive, and unary minus respects it. *)
Class ScalarCongruence (S : Type) {ops : Scalar S} : Prop := {
  Seqb_trans  : forall x y z : S,
      Seqb x y = true -> Seqb y z = true -> Seqb x z = true;
  Sopp_compat : forall x y : S,
      Seqb x y = true -> Seqb (Sopp x) (Sopp y) = true
}.

Arguments ScalarCongruence S {ops}.

(** ** Fixed-size vectors and matrices *)

(** Row and column indices.  Every access in the header is by one of the
    literals 0, 1, 2. *)
Inductive Idx : Type := i0 | i1 | i2.

Definition indices : list Idx := [i0; i1; i2].

Section Linear.

Context {S : Type} {ops : Scalar S}.

(** [Eigen::Matrix<S, 3, 1>]; [Vector3 x y z] is the three-coefficient
    constructor [Tangent(x, y, z)]. *)
Record VectorType : Type := Vector3 { vx : S; vy : S; vz : S }.

(** [Eigen::Matrix<S, 3, 3>].  The arguments of [Matrix3] come in the order
    of the comma initialiser [res << ...], that is row by row. *)
Record RotationMatrixType : Type := Matrix3 {
  m00 : S; m01 : S; m02 : S;
  m10 : S; m11 : S; m12 : S;
  m20 : S; m21 : S; m22 : S
}.

(** The data type of the Lie algebra so(3). *)
Definition Tangent : Type := VectorType.
Definition so3 : Type := Tangent.

(** [v(i)] *)
Definition vcoeff (v : VectorType) (i : Idx) : S :=
  match i with
  | i0 => vx v
  | i1 => vy v
  | i2 => vz v
  end.

(** [mat(i, j)] *)
Definition coeff (m : RotationMatrixType) (i j : Idx) : S :=
  match i, j with
  | i0, i0 => m00 m | i0, i1 => m01 m | i0, i2 => m02 m
  | i1, i0 => m10 m | i1, i1 => m11 m | i1, i2 => m12 m
  | i2, i0 => m20 m | i2, i1 => m21 m | i2, i2 => m22 m
  end.

(** [mat.transpose()] *)
Definition transpose (m : RotationMatrixType) : RotationMatrixType :=
  Matrix3 (coeff m i0 i0) (coeff m i1 i0) (coeff m i2 i0)
          (coeff m i0 i1) (coeff m i1 i1) (coeff m i2 i1)
          (coeff m i0 i2) (coeff m i1 i2) (coeff m i2 i2).

(** [-mat], coefficient by coefficient *)
Definition mat_opp (m : RotationMatrixType) : RotationMatrixType :=
  Matrix3 (Sopp (m00 m)) (Sopp (m01 m)) (Sopp (m02 m))
          (Sopp (m10 m)) (Sopp (m11 m)) (Sopp (m12 m))
          (Sopp (m20 m)) (Sopp (m21 m)) (Sopp (m22 m)).

(** Eigen's [a == b] on matrices: every pair of coefficients compares
    equal under the scalar's [==]. *)
Definition mat_eqb (a b : RotationMatrixType) : bool :=
  forallb (fun i => forallb (fun j => Seqb (coeff a i j) (coeff b i j)) indices)
          indices.

(** Eigen's [a == b] on vectors. *)
Definition vec_eqb (a b : VectorType) : bool :=
  forallb (fun i => Seqb (vcoeff a i) (vcoeff b i)) indices.

(** [M == -M.transpose()]: the precondition of [Vee]. *)
Definition isSkewSymmetric (m : RotationMatrixType) : bool :=
  mat_eqb m (mat_opp (transpose m)).

(** ** Hat and Vee (SO3Base.hpp, lines 230-244) *)

Definition Hat (angleAxis : Tangent) : RotationMatrixType :=
  Matrix3
    S0                          (Sopp (vcoeff angleAxis i2)) (vcoeff angleAxis i1)
    (vcoeff angleAxis i2)       S0                           (Sopp (vcoeff angleAxis i0))
    (Sopp (vcoeff angleAxis i1)) (vcoeff angleAxis i0)       S0.

Definition Vee (mat : RotationMatrixType) : Tangent :=
  Vector3 (coeff mat i2 i1) (coeff mat i0 i2) (coeff mat i1 i0).

End Linear.

Arguments VectorType S : clear implicits.
Arguments RotationMatrixType S : clear implicits.
Arguments Tangent S : clear implicits.
Arguments so3 S : clear implicits.

(** ** Facts about indices and the comparisons *)

Lemma Idx_all (i : Idx) : In i indices.
Proof. destruct i; simpl; auto. Qed.

Lemma Idx_eq_dec (i j : Idx) : {i = j} + {i <> j}.
Proof. decide equality. Defined.

Section LinearFacts.

Context {S : Type} {ops : Scalar S}.

Lemma mat_eqb_coeff (a b : RotationMatrixType S) :
  mat_eqb a b = true <->
  forall i j, Seqb (coeff a i j) (coeff b i j) = true.
Proof.
  unfold mat_eqb. rewrite forallb_forall. split.
  - intros H i j. specialize (H i (Idx_all i)).
    rewrite forallb_forall in H. apply H, Idx_all.
  - intros H i _. rewrite forallb_forall. intros j _. apply H.
Qed.

Lemma vec_eqb_coeff (a b : VectorType S) :
  vec_eqb a b = true <->
  forall i, Seqb (vcoeff a i) (vcoeff b i) = true.
Proof.
  unfold vec_eqb. rewrite forallb_forall. split.
  - intros H i. apply H, Idx_all.
  - intros H i _. apply H.
Qed.

Lemma coeff_transpose (m : RotationMatrixType S) (i j : Idx) :
  coeff (transpose m) i j = coeff m j i.
Proof. destruct i, j; reflexivity. Qed.

Lemma coeff_mat_opp (m : RotationMatrixType S) (i j : Idx) :
  coeff (mat_opp m) i j = Sopp (coeff m i j).
Proof. destruct i, j; reflexivity. Qed.

Lemma isSkewSymmetric_coeff (m : RotationMatrixType S) :
  isSkewSymmetric m = true <->
  forall i j, Seqb (coeff m i j) (Sopp (coeff m j i)) = true.
Proof.
  unfold isSkewSymmetric. rewrite mat_eqb_coeff.
  split; intros H i j; specialize (H i j);
    rewrite coeff_mat_opp, coeff_transpose in *; exact H.
Qed.

Lemma mat_eqb_refl {laws : ScalarLaws S} (m : RotationMatrixType S) :
  mat_eqb m m = true.
Proof. apply mat_eqb_coeff. intros i j. apply Seqb_refl. Qed.

Lemma vec_eqb_refl {laws : ScalarLaws S} (v : VectorType S) :
  vec_eqb v v = true.
Proof. apply vec_eqb_coeff. intros i. apply Seqb_refl. Qed.

(** The coefficients of [Hat v], read back one by one. *)
Lemma coeff_Hat (v : Tangent S) (i j : Idx) :
  coeff (Hat v) i j =
  match i, j with
  | i0, i0 => S0 | i0, i1 => Sopp (vcoeff v i2) | i0, i2 => vcoeff v i1
  | i1, i0 => vcoeff v i2 | i1, i1 => S0 | i1, i2 => Sopp (vcoeff v i0)
  | i2, i0 => Sopp (vcoeff v i1) | i2, i1 => vcoeff v i0 | i2, i2 => S0
  end.
Proof. destruct i, j; reflexivity. Qed.

(** C1. For every 3-vector [v = (v0, v1, v2)], [Hat v] is exactly the matrix
    with rows [(0, -v2, v1)], [(v2, 0, -v0)], [(-v1, v0, 0)]. *)
Theorem Hat_matrix (v0 v1 v2 : S) :
  Hat (Vector3 v0 v1 v2) =
  Matrix3 S0        (Sopp v2) v1
          v2        S0        (Sopp v0)
          (Sopp v1) v0        S0.
Proof. unfold Hat. simpl. reflexivity. Qed.

(** C2. [Hat] and [Vee] are mutually inverse.  [Vee (Hat v)] is [v] itself
    (hence also [==] to it), for every 3-vector [v]; and for every matrix
    [M] with [M == -M.transpose()], [Hat (Vee M) == M], where [Vee] reads
    the coefficients [(M(2,1), M(0,2), M(1,0))]. *)
Theorem Hat_Vee_inverse {laws : ScalarLaws S} :
  (forall v : Tangent S,
      Vee (Hat v) = v /\ vec_eqb (Vee (Hat v)) v = true) /\
  (forall M : RotationMatrixType S,
      Vee M = Vector3 (coeff M i2 i1) (coeff M i0 i2) (coeff M i1 i0)) /\
  (forall M : RotationMatrixType S,
      isSkewSymmetric M = true -> mat_eqb (Hat (Vee M)) M = true).
Proof.
  split; [|split].
  - intros [x y z]. split.
    + reflexivity.
    + apply vec_eqb_refl.
  - reflexivity.
  - intros M HM. rewrite isSkewSymmetric_coeff in HM.
    apply mat_eqb_coeff. intros i j. rewrite coeff_Hat.
    destruct i, j; simpl.
    + apply Seqb_opp_self, (HM i0 i0).
    + apply Seqb_sym, (HM i0 i1).
    + apply Seqb_refl.
    + apply Seqb_refl.
    + apply Seqb_opp_self, (HM i1 i1).
    + apply Seqb_sym, (HM i1 i2).
    + apply Seqb_sym, (HM i2 i0).
    + apply Seqb_refl.
    + apply Seqb_opp_self, (HM i2 i2).
Qed.

(** C10. For every 3-vector [v], [Hat v] is skew-symmetric:
    [Hat v == -(Hat v).transpose()]; its three diagonal coefficients are
    zero and opposite off-diagonal coefficients are each other's negation.
    So [Hat v] always meets the precondition of [Vee]. *)
Theorem Hat_skew_symmetric {laws : ScalarLaws S} (v : Tangent S) :
  isSkewSymmetric (Hat v) = true /\
  (forall i, coeff (Hat v) i i = S0) /\
  (forall i j, i <> j -> coeff (Hat v) i j = Sopp (coeff (Hat v) j i)).
Proof.
  split; [|split].
  - apply isSkewSymmetric_coeff. intros i j. rewrite !coeff_Hat.
    destruct i, j;
      try apply Seqb_zero_opp;
      try rewrite Sopp_involutive;
      apply Seqb_refl.
  - intros i. rewrite coeff_Hat. destruct i; reflexivity.
  - intros i j Hij. rewrite !coeff_Hat.
    destruct i, j;
      try (exfalso; apply Hij; reflexivity);
      try rewrite Sopp_involutive; reflexivity.
Qed.

End LinearFacts.

(** ** More on Hat and Vee *)

Section HatVee.

Context {S : Type} {ops : Scalar S}.

(** [-v] on a vector, coefficient by coefficient *)
Definition vec_opp (v : VectorType S) : VectorType S :=
  Vector3 (Sopp (vx v)) (Sopp (vy v)) (Sopp (vz v)).

Lemma Vee_Hat (v : Tangent S) : Vee (Hat v) = v.
Proof. destruct v as [x y z]. reflexivity. Qed.

Lemma mat_eqb_sym {laws : ScalarLaws S} (a b : RotationMatrixType S) :
  mat_eqb a b = true -> mat_eqb b a = true.
Proof.
  rewrite !mat_eqb_coeff. intros H i j. apply Seqb_sym, H.
Qed.

Lemma mat_eqb_trans {cong : ScalarCongruence S} (a b c : RotationMatrixType S) :
  mat_eqb a b = true -> mat_eqb b c = true -> mat_eqb a c = true.
Proof.
  rewrite !mat_eqb_coeff. intros Hab Hbc i j.
  apply Seqb_trans with (coeff b i j); [apply Hab | apply Hbc].
Qed.

Lemma Hat_isSkewSymmetric {laws : ScalarLaws S} (v : Tangent S) :
  isSkewSymmetric (Hat v) = true.
Proof.
  apply isSkewSymmetric_coeff. intros i j. rewrite !coeff_Hat.
  destruct i, j; try apply Seqb_zero_opp;
    try rewrite Sopp_involutive; apply Seqb_refl.
Qed.

Lemma Hat_Vee_of_skew {laws : ScalarLaws S} (M : RotationMatrixType S) :
  isSkewSymmetric M = true -> mat_eqb (Hat (Vee M)) M = true.
Proof.
  rewrite isSkewSymmetric_coeff, mat_eqb_coeff. intros HM i j.
  rewrite coeff_Hat.
  destruct i, j; simpl.
  - apply Seqb_opp_self, (HM i0 i0).
  - apply Seqb_sym, (HM i0 i1).
  - apply Seqb_refl.
  - apply Seqb_refl.
  - apply Seqb_opp_self, (HM i1 i1).
  - apply Seqb_sym, (HM i1 i2).
  - apply Seqb_sym, (HM i2 i0).
  - apply Seqb_refl.
  - apply Seqb_opp_self, (HM i2 i2).
Qed.

(** [x == -x] forces [x == 0], so two such scalars are [==]. *)
Lemma Seqb_self_opp_eq {laws : ScalarLaws S} {cong : ScalarCongruence S}
  (x y : S) :
  Seqb x (Sopp x) = true -> Seqb y (Sopp y) = true -> Seqb x y = true.
Proof.
  intros Hx Hy. apply Seqb_trans with S0.
  - apply Seqb_sym, Seqb_opp_self, Hx.
  - apply Seqb_opp_self, Hy.
Qed.

(** [a == -b], [b == b'] and [a' == -b'] give [a == a']. *)
Lemma Seqb_opp_pair {laws : ScalarLaws S} {cong : ScalarCongruence S}
  (a b a' b' : S)
  (Ha : Seqb a (Sopp b) = true) (Hb : Seqb b b' = true)
  (Ha' : Seqb a' (Sopp b') = true) :
  Seqb a a' = true.
Proof.
  apply Seqb_trans with (Sopp b); [exact Ha|].
  apply Seqb_trans with (Sopp b'); [apply Sopp_compat, Hb|].
  apply Seqb_sym, Ha'.
Qed.

(** [-a == b] gives [a == -b]. *)
Lemma Seqb_opp_swap {laws : ScalarLaws S} {cong : ScalarCongruence S}
  (a b : S) :
  Seqb (Sopp a) b = true -> Seqb a (Sopp b) = true.
Proof.
  intros H. apply Sopp_compat in H. rewrite Sopp_involutive in H. exact H.
Qed.

(** X1. [Hat] is injective: two tangent vectors with the same [Hat] matrix
    are the same vector.  No property of the scalar is needed. *)
Theorem Hat_injective (u v : Tangent S) : Hat u = Hat v <-> u = v.
Proof.
  split.
  - intros H. rewrite <- (Vee_Hat u), <- (Vee_Hat v), H. reflexivity.
  - intros ->. reflexivity.
Qed.

(** X2. Under [==], [Hat u == Hat v] holds exactly when [u == v]. *)
Theorem Hat_eqb_iff {laws : ScalarLaws S} {cong : ScalarCongruence S}
  (u v : Tangent S) :
  mat_eqb (Hat u) (Hat v) = vec_eqb u v.
Proof.
  apply eq_iff_eq_true. rewrite mat_eqb_coeff, vec_eqb_coeff. split.
  - intros H i.
    destruct i;
      [ specialize (H i2 i1) | specialize (H i0 i2) | specialize (H i1 i0) ];
      rewrite !coeff_Hat in H; exact H.
  - intros H i j. rewrite !coeff_Hat.
    destruct i, j;
      first [ apply Seqb_refl | apply Sopp_compat, H | apply H ].
Qed.

(** X3. On skew-symmetric matrices [Vee] loses nothing: two skew-symmetric
    matrices with [==] [Vee] vectors are [==]. *)
Theorem Vee_injective_on_skew {laws : ScalarLaws S} {cong : ScalarCongruence S}
  (M N : RotationMatrixType S) :
  isSkewSymmetric M = true -> isSkewSymmetric N = true ->
  vec_eqb (Vee M) (Vee N) = true -> mat_eqb M N = true.
Proof.
  rewrite !isSkewSymmetric_coeff, vec_eqb_coeff, mat_eqb_coeff.
  intros HM HN HV i j.
  pose proof (HV i0) as H21. pose proof (HV i1) as H02.
  pose proof (HV i2) as H10. simpl in H21, H02, H10.
  destruct i, j; simpl.
  - apply Seqb_self_opp_eq; [apply (HM i0 i0) | apply (HN i0 i0)].
  - eapply Seqb_opp_pair; [apply (HM i0 i1) | exact H10 | apply (HN i0 i1)].
  - exact H02.
  - exact H10.
  - apply Seqb_self_opp_eq; [apply (HM i1 i1) | apply (HN i1 i1)].
  - eapply Seqb_opp_pair; [apply (HM i1 i2) | exact H21 | apply (HN i1 i2)].
  - eapply Seqb_opp_pair; [apply (HM i2 i0) | exact H02 | apply (HN i2 i0)].
  - exact H21.
  - apply Seqb_self_opp_eq; [apply (HM i2 i2) | apply (HN i2 i2)].
Qed.

(** X4. The round trip through [Vee] and [Hat] gives back a matrix [==] to
    [M] exactly when [M] is skew-symmetric: [Hat (Vee M) == M] is the
    validity check that [Vee] leaves out. *)
Theorem Hat_Vee_iff_skew {laws : ScalarLaws S} {cong : ScalarCongruence S}
  (M : RotationMatrixType S) :
  mat_eqb (Hat (Vee M)) M = isSkewSymmetric M.
Proof.
  apply eq_iff_eq_true. split; [|apply Hat_Vee_of_skew].
  rewrite isSkewSymmetric_coeff, mat_eqb_coeff. intros H i j.
  assert (Hd : forall x : S, Seqb S0 x = true -> Seqb x (Sopp x) = true).
  { intros x Hx. apply Seqb_trans with S0; [apply Seqb_sym, Hx|].
    apply Seqb_trans with (Sopp S0); [apply Seqb_zero_opp|].
    apply Sopp_compat, Hx. }
  pose proof (H i0 i0) as H00. pose proof (H i0 i1) as H01.
  pose proof (H i1 i1) as H11. pose proof (H i1 i2) as H12.
  pose proof (H i2 i0) as H20. pose proof (H i2 i2) as H22.
  rewrite coeff_Hat in H00, H01, H11, H12, H20, H22.
  simpl in H00, H01, H11, H12, H20, H22.
  destruct i, j; simpl;
    first [ apply Hd; assumption
          | apply Seqb_sym; assumption
          | apply Seqb_opp_swap; assumption ].
Qed.

(** X5. On any matrix, skew-symmetric or not, [Vee] reads three
    coefficients and nothing else: [Hat (Vee M)] is skew-symmetric, it has
    the same [Vee] as [M], and a second round trip changes nothing. *)
Theorem Hat_Vee_projection {laws : ScalarLaws S} (M : RotationMatrixType S) :
  isSkewSymmetric (Hat (Vee M)) = true /\
  Vee (Hat (Vee M)) = Vee M /\
  Hat (Vee (Hat (Vee M))) = Hat (Vee M).
Proof.
  split; [|split].
  - apply Hat_isSkewSymmetric.
  - apply Vee_Hat.
  - rewrite Vee_Hat. reflexivity.
Qed.

(** X6. The transpose of [Hat v] is [Hat (-v)], coefficient for
    coefficient, and [-(Hat v) == Hat (-v)]. *)
Theorem Hat_transpose {laws : ScalarLaws S} (v : Tangent S) :
  transpose (Hat v) = Hat (vec_opp v) /\
  mat_eqb (mat_opp (Hat v)) (Hat (vec_opp v)) = true.
Proof.
  split.
  - destruct v as [x y z]. unfold Hat, transpose, vec_opp. simpl.
    rewrite !Sopp_involutive. reflexivity.
  - apply mat_eqb_coeff. intros i j.
    rewrite coeff_mat_opp, !coeff_Hat.
    destruct v as [x y z].
    destruct i, j; simpl;
      first [ apply Seqb_sym, Seqb_zero_opp | apply Seqb_refl ].
Qed.

End HatVee.

(** ** Representations (SO3Base.hpp, lines 46-72 and 246-333) *)

Section Representations.

Context {S : Type} {ops : Scalar S}.

(** The header names two representation tags, [RotationMatrixRep] and
    [RotationVectorRep]; the others (quaternion, axis-angle, Euler angles)
    are declared elsewhere and are kept abstract, with their storage. *)
Variable OtherRep : Type.
Variable OtherRepData : OtherRep -> Type.

Inductive Rep : Type :=
| RotationMatrixRep
| RotationVectorRep
| OtherRepTag (o : OtherRep).

(** "We assume the canonical representation is the rotation matrix"
    (comments of [toRotationMatrix] and [fromRotationMatrix]). *)
Definition SO3CanonicalRep : Rep := RotationMatrixRep.

(** [detail::SO3::rep_traits<S, Rep>::RepDataType].  The two named tags
    store what the header's own signatures say: [toRotationMatrix] returns
    the canonical data as a [RotationMatrixType], and [Exp] / [Log] pass a
    [Tangent] as the data of [RotationVectorRep]. *)
Definition RepDataType (r : Rep) : Type :=
  match r with
  | RotationMatrixRep => RotationMatrixType S
  | RotationVectorRep => Tangent S
  | OtherRepTag o => OtherRepData o
  end.

(** Modelled from the spec: [detail::SO3::is_canonical<Derived>] is declared
    in dart/math/detail/SO3Base.hpp; it is the compile-time predicate that
    distinguishes the canonical representation. *)
Definition is_canonical (r : Rep) : bool :=
  match r with
  | RotationMatrixRep => true
  | _ => false
  end.

(** [SO3<S, Rep>]: a rotation owns its representation data by value. *)
Record SO3 (r : Rep) : Type := mkSO3 { mRepData : RepDataType r }.

(** [detail::traits<Derived>::Canonical] *)
Definition Canonical : Type := SO3 SO3CanonicalRep.

(** [detail::SO3::convert_impl<S, From, To>::run], the conversion engine:
    floating-point code that lives outside this header. *)
Variable convert_impl : forall from to : Rep, RepDataType from -> RepDataType to.

(** Modelled from the spec: [detail::SO3::convert_to_canonical_impl<S, Rep>]
    is the pivot leg towards the canonical representation; on the canonical
    representation itself there is nothing to convert. *)
Definition convert_to_canonical_impl (r : Rep) :
  RepDataType r -> RotationMatrixType S :=
  match r return RepDataType r -> RotationMatrixType S with
  | RotationMatrixRep => fun data => data
  | RotationVectorRep => convert_impl RotationVectorRep SO3CanonicalRep
  | OtherRepTag o => convert_impl (OtherRepTag o) SO3CanonicalRep
  end.

(** Modelled from the spec: [detail::SO3::convert_to_noncanonical_impl<S, Rep>]
    is the pivot leg away from the canonical representation. *)
Definition convert_to_noncanonical_impl (r : Rep) :
  RotationMatrixType S -> RepDataType r :=
  match r return RotationMatrixType S -> RepDataType r with
  | RotationMatrixRep => fun rotMat => rotMat
  | RotationVectorRep => convert_impl SO3CanonicalRep RotationVectorRep
  | OtherRepTag o => convert_impl SO3CanonicalRep (OtherRepTag o)
  end.

(** Modelled from the spec: the converting constructor of [SO3<S, To>] from
    a rotation in another representation (the constructor counterpart of
    [operator=]) converts the source's data through the conversion engine. *)
Definition SO3_from {from : Rep} (to : Rep) (other : SO3 from) : SO3 to :=
  mkSO3 to (convert_impl from to (mRepData other)).

Definition getRepData {r : Rep} (this : SO3 r) : RepDataType r :=
  mRepData this.

Definition setRepData {r : Rep} (this : SO3 r) (data : RepDataType r) : SO3 r :=
  mkSO3 r data.

Definition toRotationMatrix {r : Rep} (this : SO3 r) : RotationMatrixType S :=
  convert_to_canonical_impl r (getRepData this).

Definition fromRotationMatrix {r : Rep} (this : SO3 r)
  (rotMat : RotationMatrixType S) : SO3 r :=
  setRepData this (convert_to_noncanonical_impl r rotMat).

Definition getCoordinates {r : Rep} (RepTo : Rep) (this : SO3 r) :
  RepDataType RepTo :=
  convert_impl r RepTo (mRepData this).

Definition Exp (r : Rep) (tangent : so3 S) : SO3 r :=
  mkSO3 r (convert_impl RotationVectorRep r tangent).

Definition Log {r : Rep} (point : SO3 r) : so3 S :=
  convert_impl r RotationVectorRep (getRepData point).

(** [operator==] between two operands of one type (lines 147-150) is the
    comparison of [Derived]; see [operator_eq_same] below.  The template
    overload (lines 152-156) is the one chosen when the two operands are
    held in different representations. *)
Definition operator_eq {ra rb : Rep} (this : SO3 ra) (other : SO3 rb) : bool :=
  mat_eqb (toRotationMatrix this) (toRotationMatrix other).

Definition isCanonical (r : Rep) : bool := is_canonical r.

(** [canonical(std::true_type)]: [return derived();] *)
Definition canonical_true (this : SO3 SO3CanonicalRep) : Canonical := this.

(** [canonical(std::false_type)]: [return Canonical(derived());] *)
Definition canonical_false {r : Rep} (this : SO3 r) : Canonical :=
  SO3_from SO3CanonicalRep this.

(** When [is_canonical<Derived>] holds, [Derived] and [Canonical] are one
    type, which is what lets [canonical(std::true_type)] return [derived()]
    as a [Canonical]. *)
Definition as_Canonical {r : Rep} : is_canonical r = true -> SO3 r -> Canonical :=
  match r return is_canonical r = true -> SO3 r -> Canonical with
  | RotationMatrixRep => fun _ this => this
  | RotationVectorRep => fun H _ => False_rect _ (diff_false_true H)
  | OtherRepTag o => fun H _ => False_rect _ (diff_false_true H)
  end.

(** [canonical()]: [return canonical(detail::SO3::is_canonical<Derived>());],
    a tag dispatch between the two overloads. *)
Definition canonical {r : Rep} (this : SO3 r) : Canonical :=
  (if is_canonical r as tag return is_canonical r = tag -> Canonical
   then fun H => canonical_true (as_Canonical H this)
   else fun _ => canonical_false this) eq_refl.

(** *** Members that only forward to [Derived] or to [detail::SO3]

    Group multiplication, inversion, the identity and the approximate
    comparison are supplied by each representation; the header adds no
    computation of its own to them. *)

Variable inplace_group_multiplication_impl :
  forall ra rb : Rep, SO3 ra -> SO3 rb -> SO3 ra.
Variable derived_invert : forall r : Rep, SO3 r -> SO3 r.
Variable derived_inverse : forall r : Rep, SO3 r -> SO3 r.
Variable derived_setIdentity : forall r : Rep, SO3 r -> SO3 r.
Variable derived_isIdentity : forall r : Rep, SO3 r -> bool.
Variable derived_operator_eq : forall r : Rep, SO3 r -> SO3 r -> bool.
Variable is_approx_impl : forall ra rb : Rep, SO3 ra -> SO3 rb -> S -> bool.

(** The conversion of a floating-point literal to [S]. *)
Variable S_of_literal : float -> S.

(** [operator==] on two operands of the same type. *)
Definition operator_eq_same {r : Rep} (this other : SO3 r) : bool :=
  derived_operator_eq this other.

(** [operator*=] *)
Definition operator_mul_assign {ra rb : Rep} (this : SO3 ra) (other : SO3 rb) :
  SO3 ra :=
  inplace_group_multiplication_impl this other.

(** [operator*]: copy the receiver, multiply the copy in place. *)
Definition operator_mul {ra rb : Rep} (this : SO3 ra) (other : SO3 rb) : SO3 ra :=
  let result := this in
  operator_mul_assign result other.

Definition invert {r : Rep} (this : SO3 r) : SO3 r := derived_invert this.

Definition getInverse {r : Rep} (this : SO3 r) : SO3 r := derived_inverse this.

Definition setIdentity {r : Rep} (this : SO3 r) : SO3 r :=
  derived_setIdentity this.

Definition isIdentity {r : Rep} (this : SO3 r) : bool :=
  derived_isIdentity this.

(** [Identity()]: [Derived I; I.setIdentity(); return I;].  The freshly
    declared [I] holds whatever its storage holds; it is a parameter. *)
Definition Identity (r : Rep) (I : SO3 r) : SO3 r := setIdentity I.

Definition isApprox {ra rb : Rep} (this : SO3 ra) (other : SO3 rb) (tol : S) :
  bool :=
  is_approx_impl this other tol.

(** The literal [1e-6], as the binary64 value nearest to it. *)
Definition default_tol : float := 0x1.0c6f7a0b5ed8dp-20%float.

(** [isApprox(other)], with the default argument [S tol = 1e-6]. *)
Definition isApprox_default {ra rb : Rep} (this : SO3 ra) (other : SO3 rb) :
  bool :=
  isApprox this other (S_of_literal default_tol).

(** *** Facts *)

Lemma canonical_on_canonical (this : SO3 SO3CanonicalRep) :
  canonical this = canonical_true this.
Proof. reflexivity. Qed.

Lemma canonical_on_noncanonical (r : Rep) (this : SO3 r) :
  is_canonical r = false -> canonical this = canonical_false this.
Proof. destruct r; simpl; intros H; try discriminate H; reflexivity. Qed.

Lemma toRotationMatrix_canonical_rep (this : SO3 RotationMatrixRep) :
  toRotationMatrix this = getRepData this.
Proof. reflexivity. Qed.

Lemma operator_eq_coeff {ra rb : Rep} (a : SO3 ra) (b : SO3 rb) :
  operator_eq a b = true <->
  forall i j,
    Seqb (coeff (toRotationMatrix a) i j) (coeff (toRotationMatrix b) i j) = true.
Proof. unfold operator_eq. apply mat_eqb_coeff. Qed.

(** A rotation matrix [a] that stores the rotation-matrix image of [b]
    compares equal to [b], in whatever representation [b] is held. *)
Lemma operator_eq_matrix_image {laws : ScalarLaws S}
  (rb : Rep) (a : SO3 RotationMatrixRep) (b : SO3 rb) :
  getRepData a = toRotationMatrix b -> operator_eq a b = true.
Proof.
  intros Hab. unfold operator_eq.
  rewrite toRotationMatrix_canonical_rep, Hab.
  apply mat_eqb_refl.
Qed.

(** C3. Between two rotations held in (possibly) different representations,
    [operator==] returns [true] exactly when the two rotation-matrix images
    are equal, coefficient by coefficient.  In particular the storage does
    not enter the comparison: two rotations with the same rotation-matrix
    image compare equal, whatever their representations and their data. *)
Theorem operator_eq_rotation_matrix {laws : ScalarLaws S} :
  (forall (ra rb : Rep) (a : SO3 ra) (b : SO3 rb),
      operator_eq a b = mat_eqb (toRotationMatrix a) (toRotationMatrix b) /\
      (operator_eq a b = true <->
       forall i j,
         Seqb (coeff (toRotationMatrix a) i j)
              (coeff (toRotationMatrix b) i j) = true)) /\
  (forall (ra rb : Rep) (a : SO3 ra) (b : SO3 rb),
      toRotationMatrix a = toRotationMatrix b -> operator_eq a b = true).
Proof.
  split.
  - intros ra rb a b. split.
    + reflexivity.
    + apply operator_eq_coeff.
  - intros ra rb a b Hab. unfold operator_eq.
    rewrite Hab. apply mat_eqb_refl.
Qed.

(** C7. [canonical()] is idempotent: [r.canonical().canonical()] is the same
    value as [r.canonical()].  The second call is the [std::true_type]
    overload, which returns its receiver; and on a receiver whose
    representation is canonical already, [canonical()] returns that very
    element, whatever the conversion engine is. *)
Theorem canonical_idempotent :
  (forall (r : Rep) (x : SO3 r), canonical (canonical x) = canonical x) /\
  (forall (r : Rep) (x : SO3 r),
      canonical (canonical x) = canonical_true (canonical x)) /\
  (forall (r : Rep) (x : SO3 r),
      isCanonical r = true ->
      existT SO3 SO3CanonicalRep (canonical x) = existT SO3 r x) /\
  isCanonical SO3CanonicalRep = true.
Proof.
  split; [|split; [|split]].
  - intros r x. rewrite canonical_on_canonical. reflexivity.
  - intros r x. apply canonical_on_canonical.
  - intros r x Hr. destruct r; simpl in Hr; try discriminate Hr.
    rewrite canonical_on_canonical. reflexivity.
  - reflexivity.
Qed.

(** *** How the members compose *)




(** [setRepData] and [fromRotationMatrix] overwrite: what is read back
    is what was written last, whatever the rotation held before; and on the
    rotation-matrix representation [toRotationMatrix] returns the matrix
    given to [fromRotationMatrix] unchanged. *)
Lemma setRepData_overwrites :
  (forall (r : Rep) (x : SO3 r) (d : RepDataType r),
      getRepData (setRepData x d) = d) /\
  (forall (r : Rep) (x : SO3 r), setRepData x (getRepData x) = x) /\
  (forall (r : Rep) (x y : SO3 r) (d e : RepDataType r),
      setRepData (setRepData x d) e = setRepData y e) /\
  (forall (r : Rep) (x y : SO3 r) (M : RotationMatrixType S),
      fromRotationMatrix x M = fromRotationMatrix y M) /\
  (forall (x : SO3 RotationMatrixRep) (M : RotationMatrixType S),
      toRotationMatrix (fromRotationMatrix x M) = M).
Proof.
  repeat split.
  intros r [d]. reflexivity.
Qed.

End Representations.

Arguments RotationMatrixRep {OtherRep}.
Arguments RotationVectorRep {OtherRep}.
Arguments OtherRepTag {OtherRep} o.
Arguments SO3CanonicalRep {OtherRep}.

(** ** Scalar instance: integers

    Eigen matrices may hold integers; every operation is exact and [==] is
    equality. *)

#[export] Instance Z_Scalar : Scalar Z :=
  {| S0 := 0%Z; Sopp := Z.opp; Seqb := Z.eqb |}.

#[export] Instance Z_ScalarLaws : ScalarLaws Z.
Proof.
  constructor; unfold Seqb, Sopp, S0, Z_Scalar.
  - apply Z.eqb_refl.
  - intros x y. rewrite Z.eqb_sym. trivial.
  - apply Z.opp_involutive.
  - reflexivity.
  - intros x. rewrite !Z.eqb_eq. lia.
Qed.

(** ** Scalar instance: IEEE binary64 numbers ([SO3d])

    The carrier is the binary64 values that are numbers: finite values, the
    two zeros and the two infinities.  [==] is the IEEE comparison, under
    which [0 == -0]. *)

Record double : Type := mkDouble {
  dval : float;
  dval_number : is_nan dval = false
}.

Lemma SFeqb_finite (s1 s2 : bool) (m1 m2 : positive) (e1 e2 : Z) :
  SFeqb (S754_finite s1 m1 e1) (S754_finite s2 m2 e2) = true <->
  s1 = s2 /\ m1 = m2 /\ e1 = e2.
Proof.
  unfold SFeqb, SFcompare. split.
  - destruct s1, s2; try discriminate;
      destruct (e1 ?= e2)%Z eqn:E; try discriminate;
      apply Z.compare_eq in E; subst e2;
      destruct (Pos.compare_cont Eq m1 m2) eqn:M; try discriminate;
      apply Pos.compare_eq in M; subst m2; auto.
  - intros (-> & -> & ->). rewrite Z.compare_refl, Pos.compare_cont_refl.
    destruct s2; reflexivity.
Qed.

Lemma SFeqb_sym (x y : spec_float) : SFeqb x y = true -> SFeqb y x = true.
Proof.
  destruct x as [s1|s1| |s1 m1 e1], y as [s2|s2| |s2 m2 e2];
    try (rewrite !SFeqb_finite; intros (-> & -> & ->); auto);
    unfold SFeqb; simpl; try discriminate; try reflexivity;
    destruct s1, s2; simpl; try discriminate; reflexivity.
Qed.

Lemma SFeqb_opp_refl (x : spec_float) :
  SFeqb x x = true -> SFeqb (SFopp x) (SFopp x) = true.
Proof.
  destruct x as [s|s| |s m e]; simpl; try discriminate.
  - reflexivity.
  - destruct s; reflexivity.
  - intros _. apply SFeqb_finite. auto.
Qed.

Lemma SFeqb_opp_self (x : spec_float) :
  SFeqb x (SFopp x) = true -> SFeqb (S754_zero false) x = true.
Proof.
  destruct x as [s|s| |s m e]; simpl; try discriminate.
  - reflexivity.
  - destruct s; discriminate.
  - rewrite SFeqb_finite. intros (Hs & _). destruct s; discriminate.
Qed.

Lemma SFopp_involutive (x : spec_float) : SFopp (SFopp x) = x.
Proof.
  destruct x as [s|s| |s m e]; simpl; rewrite ?negb_involutive; reflexivity.
Qed.

Lemma is_nan_false_eqb (f : float) : is_nan f = false <-> (f =? f)%float = true.
Proof. unfold is_nan. apply negb_false_iff. Qed.

Lemma is_nan_opp (f : float) : is_nan f = false -> is_nan (- f) = false.
Proof.
  rewrite !is_nan_false_eqb, !eqb_spec, opp_spec.
  apply SFeqb_opp_refl.
Qed.

Lemma float_opp_involutive (f : float) : (- - f)%float = f.
Proof.
  apply Prim2SF_inj. rewrite !opp_spec. apply SFopp_involutive.
Qed.

(** Two [double]s with the same value are the same. *)
Lemma double_ext (a b : double) : dval a = dval b -> a = b.
Proof.
  destruct a as [x Hx], b as [y Hy]. simpl. intros <-.
  f_equal. apply UIP_dec, bool_dec.
Qed.

Definition double_opp (d : double) : double :=
  mkDouble (- dval d) (is_nan_opp (dval d) (dval_number d)).

Definition double_eqb (a b : double) : bool := (dval a =? dval b)%float.

#[export] Instance double_Scalar : Scalar double :=
  {| S0 := mkDouble 0%float eq_refl; Sopp := double_opp; Seqb := double_eqb |}.

#[export] Instance double_ScalarLaws : ScalarLaws double.
Proof.
  constructor; simpl; unfold double_eqb.
  - intros x. apply is_nan_false_eqb, dval_number.
  - intros x y. rewrite !eqb_spec. apply SFeqb_sym.
  - intros x. apply double_ext. simpl. apply float_opp_involutive.
  - reflexivity.
  - intros x. simpl. rewrite !eqb_spec, opp_spec. apply SFeqb_opp_self.
Qed.

#[export] Instance Z_ScalarCongruence : ScalarCongruence Z.
Proof.
  constructor; unfold Seqb, Sopp, Z_Scalar.
  - intros x y z. rewrite !Z.eqb_eq. congruence.
  - intros x y. rewrite !Z.eqb_eq. congruence.
Qed.

Lemma SFeqb_trans (x y z : spec_float) :
  SFeqb x y = true -> SFeqb y z = true -> SFeqb x z = true.
Proof.
  destruct x as [s1|s1| |s1 m1 e1], y as [s2|s2| |s2 m2 e2],
           z as [s3|s3| |s3 m3 e3];
    try (rewrite !SFeqb_finite; intros (-> & -> & ->) (-> & -> & ->); auto);
    unfold SFeqb; simpl; try discriminate; try reflexivity;
    destruct s1, s2; simpl; try discriminate; trivial;
    destruct s3; simpl; try discriminate; trivial.
Qed.

Lemma SFeqb_opp_compat (x y : spec_float) :
  SFeqb x y = true -> SFeqb (SFopp x) (SFopp y) = true.
Proof.
  destruct x as [s1|s1| |s1 m1 e1], y as [s2|s2| |s2 m2 e2];
    try (simpl; rewrite !SFeqb_finite; intros (-> & -> & ->); auto);
    unfold SFeqb; simpl; try discriminate; try reflexivity;
    destruct s1, s2; simpl; try discriminate; reflexivity.
Qed.

#[export] Instance double_ScalarCongruence : ScalarCongruence double.
Proof.
  constructor; simpl; unfold double_eqb.
  - intros x y z. rewrite !eqb_spec. apply SFeqb_trans.
  - intros x y. simpl. rewrite !eqb_spec, !opp_spec. apply SFeqb_opp_compat.
Qed.

(** ** Scalar operations on raw binary64, NaN included

    [S = double] as the compiler sees it.  Only the operations are given:
    with NaN among the values [==] is not reflexive, so [ScalarLaws] does
    not hold here. *)

#[export] Instance float_Scalar : Scalar float :=
  {| S0 := 0%float; Sopp := PrimFloat.opp; Seqb := PrimFloat.eqb |}.

(** Some coefficient is NaN. *)
Definition vec_has_nan (v : VectorType float) : bool :=
  existsb (fun i => is_nan (vcoeff v i)) indices.

Definition mat_has_nan (m : RotationMatrixType float) : bool :=
  existsb (fun i => existsb (fun j => is_nan (coeff m i j)) indices) indices.

Lemma float_eqb_refl (f : float) : (f =? f)%float = negb (is_nan f).
Proof. unfold is_nan. rewrite negb_involutive. reflexivity. Qed.

Lemma SFeqb_refl_opp (x : spec_float) :
  SFeqb (SFopp x) (SFopp x) = SFeqb x x.
Proof.
  destruct x as [s|s| |s m e]; simpl; try reflexivity.
  - destruct s; reflexivity.
  - transitivity true; [|symmetry]; apply SFeqb_finite; auto.
Qed.

Lemma is_nan_opp_eq (f : float) : is_nan (- f) = is_nan f.
Proof.
  unfold is_nan. rewrite !eqb_spec, opp_spec, SFeqb_refl_opp. reflexivity.
Qed.

Lemma SFeqb_nan (x y : spec_float) :
  SFeqb x x = false -> SFeqb x y = false /\ SFeqb y x = false.
Proof.
  destruct x as [s|s| |s m e]; simpl.
  - discriminate.
  - destruct s; discriminate.
  - intros _. destruct y; split; reflexivity.
  - intros H. exfalso.
    assert (Ht : SFeqb (S754_finite s m e) (S754_finite s m e) = true)
      by (apply SFeqb_finite; auto).
    rewrite Ht in H. discriminate H.
Qed.

(** A NaN compares unequal to everything, on either side. *)
Lemma float_eqb_nan (f g : float) :
  is_nan f = true -> (f =? g)%float = false /\ (g =? f)%float = false.
Proof.
  unfold is_nan. rewrite negb_true_iff, !eqb_spec. apply SFeqb_nan.
Qed.

(** ** The theorems at concrete scalars *)

Section Examples.

(** Three binary64 numbers and a skew-symmetric matrix with a negative zero
    on its diagonal. *)
Definition num (f : float) (H : is_nan f = false) : double := mkDouble f H.

Definition example_vector : Tangent double :=
  Vector3 (num 1.5 eq_refl) (num (-2) eq_refl) (num 0.25 eq_refl).

Definition example_skew : RotationMatrixType double :=
  Matrix3 (num (-0) eq_refl)  (num (-3) eq_refl)   (num 2 eq_refl)
          (num 3 eq_refl)     (num 0 eq_refl)      (num (-1) eq_refl)
          (num (-2) eq_refl)  (num 1 eq_refl)      (num (-0) eq_refl).

(** A conversion table over [Z] for the two representations the header
    names: the first-order part of Rodrigues' formula, [I + Hat v], and
    [Vee] back.  It is exact on the identity rotation. *)
Definition no_other_data : Empty_set -> Type := fun _ => unit.

Definition first_order_convert (from to : Rep Empty_set) :
  @RepDataType Z Empty_set no_other_data from ->
  @RepDataType Z Empty_set no_other_data to :=
  match from, to with
  | RotationMatrixRep, RotationMatrixRep => fun m => m
  | RotationVectorRep, RotationVectorRep => fun v => v
  | RotationVectorRep, RotationMatrixRep =>
      fun v => Matrix3 1%Z (- vz v)%Z (vy v)
                       (vz v) 1%Z (- vx v)%Z
                       (- vy v)%Z (vx v) 1%Z
  | RotationMatrixRep, RotationVectorRep => fun m => Vee m
  | OtherRepTag o, _ => match o with end
  | _, OtherRepTag o => match o with end
  end.

Definition example_rotation_vector :
  @SO3 Z Empty_set no_other_data RotationVectorRep :=
  @mkSO3 Z Empty_set no_other_data RotationVectorRep (Vector3 0%Z 0%Z 0%Z).

Definition example_rotation_matrix :
  @SO3 Z Empty_set no_other_data RotationMatrixRep :=
  @mkSO3 Z Empty_set no_other_data RotationMatrixRep
         (Matrix3 1%Z 0%Z 0%Z  0%Z 1%Z 0%Z  0%Z 0%Z 1%Z).

(** On [double], [Hat (Vee M) == M] is an equality under [==] only: the
    negative zeros on the diagonal of [example_skew] come back positive. *)
Remark example_skew_signed_zero :
  mat_eqb (Hat (Vee example_skew)) example_skew = true /\
  Hat (Vee example_skew) <> example_skew.
Proof.
  split.
  - vm_compute. reflexivity.
  - intros H. apply (f_equal (fun m => Prim2SF (dval (m00 m)))) in H.
    vm_compute in H. discriminate H.
Qed.

(** The template [operator==] looks at the rotation-matrix images only. *)
Example operator_eq_example :
  operator_eq first_order_convert
    example_rotation_vector example_rotation_matrix = true.
Proof. vm_compute. reflexivity. Qed.

(** [Hat] and [Vee] undo each other on [example_vector] and [example_skew]. *)
Lemma Hat_Vee_inverse_witness :
  (Vee (Hat example_vector) = example_vector /\
   vec_eqb (Vee (Hat example_vector)) example_vector = true) /\
  isSkewSymmetric example_skew = true /\
  mat_eqb (Hat (Vee example_skew)) example_skew = true.
Proof.
  destruct (@Hat_Vee_inverse double _ _) as (Hv & _ & Hm).
  split; [apply Hv|].
  split; [vm_compute; reflexivity|].
  apply Hm. vm_compute. reflexivity.
Defined.

(** [Hat example_vector] is skew-symmetric. *)
Lemma Hat_skew_symmetric_witness :
  isSkewSymmetric (Hat example_vector) = true /\
  (forall i, coeff (Hat example_vector) i i = S0) /\
  (forall i j, i <> j ->
     coeff (Hat example_vector) i j = Sopp (coeff (Hat example_vector) j i)).
Proof. apply (@Hat_skew_symmetric double _ _ example_vector). Defined.

(** The identity matrix and the zero rotation vector compare equal. *)
Lemma operator_eq_rotation_matrix_witness :
  toRotationMatrix first_order_convert example_rotation_matrix =
    toRotationMatrix first_order_convert example_rotation_vector /\
  operator_eq first_order_convert
    example_rotation_matrix example_rotation_vector = true.
Proof.
  split; [reflexivity|].
  apply (proj2 (@operator_eq_rotation_matrix Z _ _ no_other_data
                  first_order_convert _)).
  reflexivity.
Defined.

End Examples.

(** ** What NaN does on raw binary64 *)

Section RawBinary64.

Lemma mat_has_nan_coeff (m : RotationMatrixType float) :
  mat_has_nan m = true <-> exists i j, is_nan (coeff m i j) = true.
Proof.
  unfold mat_has_nan. rewrite existsb_exists. split.
  - intros (i & _ & H). apply existsb_exists in H.
    destruct H as (j & _ & H). exists i, j. exact H.
  - intros (i & j & H). exists i. split; [apply Idx_all|].
    apply existsb_exists. exists j. split; [apply Idx_all | exact H].
Qed.

Lemma mat_eqb_nan (m n : RotationMatrixType float) :
  mat_has_nan m = true -> mat_eqb m n = false /\ mat_eqb n m = false.
Proof.
  rewrite mat_has_nan_coeff. intros (i & j & Hnan).
  destruct (float_eqb_nan (coeff m i j) (coeff n i j) Hnan) as [Hl Hr].
  split.
  - destruct (mat_eqb m n) eqn:E; [|reflexivity].
    rewrite mat_eqb_coeff in E. specialize (E i j). simpl in E.
    rewrite Hl in E. discriminate E.
  - destruct (mat_eqb n m) eqn:E; [|reflexivity].
    rewrite mat_eqb_coeff in E. specialize (E i j). simpl in E.
    rewrite Hr in E. discriminate E.
Qed.

(** X10. On raw binary64 the comparisons [Vee(Hat(v)) == v] and
    [Hat(v) == -Hat(v).transpose()] return [true] exactly when no
    coefficient of [v] is NaN (although [Vee (Hat v)] is [v] in every
    case). *)
Theorem float_Hat_Vee_nan (v : Tangent float) :
  Vee (Hat v) = v /\
  vec_eqb (Vee (Hat v)) v = negb (vec_has_nan v) /\
  isSkewSymmetric (Hat v) = negb (vec_has_nan v).
Proof.
  split; [apply Vee_Hat|]. rewrite Vee_Hat.
  destruct v as [x y z].
  unfold isSkewSymmetric, mat_eqb, vec_eqb, vec_has_nan, Hat. simpl.
  rewrite !float_opp_involutive, !float_eqb_refl, !is_nan_opp_eq.
  split.
  - destruct (is_nan x), (is_nan y), (is_nan z); reflexivity.
  - change (0 =? - 0)%float with true.
    destruct (is_nan x), (is_nan y), (is_nan z); reflexivity.
Qed.

Variable OtherRep : Type.
Variable OtherRepData : OtherRep -> Type.
Variable convert_impl :
  forall from to : Rep OtherRep,
    @RepDataType float OtherRep OtherRepData from ->
    @RepDataType float OtherRep OtherRepData to.

(** X11. On raw binary64, a rotation whose rotation-matrix image has a NaN
    coefficient compares unequal, under the template [operator==], to every
    rotation and on either side. *)
Theorem float_operator_eq_nan (ra rb : Rep OtherRep)
  (a : SO3 OtherRepData ra) (b : SO3 OtherRepData rb) :
  mat_has_nan (toRotationMatrix convert_impl a) = true ->
  operator_eq convert_impl a b = false /\
  operator_eq convert_impl b a = false.
Proof. unfold operator_eq. apply mat_eqb_nan. Qed.

End RawBinary64.

(** ** Further examples *)

Section MoreExamples.

(** Two vectors that are [==] but not the same: they differ in the sign of
    a zero. *)
Definition example_zero_pos : Tangent double :=
  Vector3 (num 0 eq_refl) (num 1 eq_refl) (num 2 eq_refl).

Definition example_zero_neg : Tangent double :=
  Vector3 (num (-0) eq_refl) (num 1 eq_refl) (num 2 eq_refl).

(** The rotation by a quarter turn about the z axis: a matrix that is not
    skew-symmetric. *)
Definition example_quarter_turn : RotationMatrixType double :=
  Matrix3 (num 0 eq_refl) (num (-1) eq_refl) (num 0 eq_refl)
          (num 1 eq_refl) (num 0 eq_refl)    (num 0 eq_refl)
          (num 0 eq_refl) (num 0 eq_refl)    (num 1 eq_refl).

(** The conversion table [first_order_convert], on raw binary64. *)
Definition float_first_order_convert (from to : Rep Empty_set) :
  @RepDataType float Empty_set no_other_data from ->
  @RepDataType float Empty_set no_other_data to :=
  match from, to with
  | RotationMatrixRep, RotationMatrixRep => fun m => m
  | RotationVectorRep, RotationVectorRep => fun v => v
  | RotationVectorRep, RotationMatrixRep =>
      fun v => Matrix3 1%float (- vz v)%float (vy v)
                       (vz v) 1%float (- vx v)%float
                       (- vy v)%float (vx v) 1%float
  | RotationMatrixRep, RotationVectorRep => fun m => Vee m
  | OtherRepTag o, _ => match o with end
  | _, OtherRepTag o => match o with end
  end.

(** A rotation matrix with a NaN coefficient, and the zero rotation
    vector. *)
Definition example_nan_matrix :
  @SO3 float Empty_set no_other_data RotationMatrixRep :=
  @mkSO3 float Empty_set no_other_data RotationMatrixRep
         (Matrix3 nan 0%float 0%float
                  0%float 1%float 0%float
                  0%float 0%float 1%float).

Definition example_float_vector :
  @SO3 float Empty_set no_other_data RotationVectorRep :=
  @mkSO3 float Empty_set no_other_data RotationVectorRep
         (Vector3 0%float 0%float 0%float).

(** [Hat] of two [==] vectors. *)
Lemma Hat_eqb_iff_witness :
  mat_eqb (Hat example_zero_pos) (Hat example_zero_neg) =
    vec_eqb example_zero_pos example_zero_neg /\
  vec_eqb example_zero_pos example_zero_neg = true.
Proof.
  split.
  - apply (@Hat_eqb_iff double _ _ _ example_zero_pos example_zero_neg).
  - vm_compute. reflexivity.
Defined.

(** [example_skew] and its round trip have the same [Vee]. *)
Lemma Vee_injective_on_skew_witness :
  isSkewSymmetric example_skew = true /\
  isSkewSymmetric (Hat (Vee example_skew)) = true /\
  vec_eqb (Vee example_skew) (Vee (Hat (Vee example_skew))) = true /\
  mat_eqb example_skew (Hat (Vee example_skew)) = true.
Proof.
  split; [vm_compute; reflexivity|].
  split; [vm_compute; reflexivity|].
  split; [vm_compute; reflexivity|].
  apply (@Vee_injective_on_skew double _ _ _
           example_skew (Hat (Vee example_skew)));
    vm_compute; reflexivity.
Defined.

(** The round trip tells the skew-symmetric matrix from the rotation. *)
Lemma Hat_Vee_iff_skew_witness :
  (mat_eqb (Hat (Vee example_skew)) example_skew =
     isSkewSymmetric example_skew /\
   isSkewSymmetric example_skew = true) /\
  (mat_eqb (Hat (Vee example_quarter_turn)) example_quarter_turn =
     isSkewSymmetric example_quarter_turn /\
   isSkewSymmetric example_quarter_turn = false).
Proof.
  split; split;
    first [ apply (@Hat_Vee_iff_skew double _ _ _) | vm_compute; reflexivity ].
Defined.

(** [Vee] on a matrix that is not skew-symmetric. *)
Lemma Hat_Vee_projection_witness :
  isSkewSymmetric (Hat (Vee example_quarter_turn)) = true /\
  Vee (Hat (Vee example_quarter_turn)) = Vee example_quarter_turn /\
  Hat (Vee (Hat (Vee example_quarter_turn))) = Hat (Vee example_quarter_turn).
Proof. apply (@Hat_Vee_projection double _ _ example_quarter_turn). Defined.

Lemma Hat_transpose_witness :
  transpose (Hat example_vector) = Hat (vec_opp example_vector) /\
  mat_eqb (mat_opp (Hat example_vector)) (Hat (vec_opp example_vector)) = true.
Proof. apply (@Hat_transpose double _ _ example_vector). Defined.


(** A NaN in the matrix makes both comparisons fail. *)
Lemma float_operator_eq_nan_witness :
  mat_has_nan
    (toRotationMatrix float_first_order_convert example_nan_matrix) = true /\
  operator_eq float_first_order_convert
    example_nan_matrix example_float_vector = false /\
  operator_eq float_first_order_convert
    example_float_vector example_nan_matrix = false.
Proof.
  split; [vm_compute; reflexivity|].
  apply (@float_operator_eq_nan Empty_set no_other_data
           float_first_order_convert).
  vm_compute. reflexivity.
Defined.

End MoreExamples.
